(** * Verification of the pseudonema-bot trend pipeline

    Shallow embedding of [src/main.py] (callback encoder/decoder, keyboard
    builder, callback router, webhook gate) and [src/scout_agent.py]
    (the RSS ingestion run). *)

From Stdlib Require Import List ZArith Lia Bool String Ascii.
Import ListNotations.
Open Scope Z_scope.

(** ** Python strings

    A Python [str] is a sequence of Unicode code points; we represent it as
    a list of [Z]. ASCII literals of the source are written with [lit]. *)

Definition pystr := list Z.

Fixpoint lit (s : string) : pystr :=
  match s with
  | EmptyString => []
  | String a s' => Z.of_nat (nat_of_ascii a) :: lit s'
  end.

Definition str_eqb (a b : pystr) : bool :=
  if list_eq_dec Z.eq_dec a b then true else false.

(** [s.startswith(p)] *)
Fixpoint startswith (s p : pystr) : bool :=
  match p, s with
  | [], _ => true
  | c :: p', d :: s' => (c =? d) && startswith s' p'
  | _ :: _, [] => false
  end.

(** [p in s] (substring test) *)
Fixpoint contains (s p : pystr) : bool :=
  startswith s p || match s with [] => false | _ :: s' => contains s' p end.

(** [s.replace(old, new)]: every non-overlapping occurrence of [old], scanned
    from the left, is replaced. [old] is non-empty at every call site; the
    [fuel] is the length of [s], which bounds the number of steps. *)
Fixpoint replace_go (fuel : nat) (s old new : pystr) : pystr :=
  match fuel with
  | O => s
  | S f =>
      if startswith s old then new ++ replace_go f (skipn (List.length old) s) old new
      else match s with
           | [] => []
           | c :: s' => c :: replace_go f s' old new
           end
  end.

Definition replace (s old new : pystr) : pystr :=
  replace_go (List.length s) s old new.

(** [s[:n]] *)
Definition prefix_slice (s : pystr) (n : nat) : pystr := firstn n s.

(** Byte length of the UTF-8 encoding of a code point and of a string:
    Telegram measures [callback_data] in UTF-8 bytes. *)
Definition utf8_len (cp : Z) : Z :=
  if cp <? 128 then 1
  else if cp <? 2048 then 2
  else if cp <? 65536 then 3
  else 4.

Definition utf8_length (s : pystr) : Z :=
  fold_right (fun c acc => utf8_len c + acc) 0 s.

(** Python's [range(start, stop, step)] for [step >= 1]; at most [stop]
    iterations are ever needed, which is the fuel. *)
Fixpoint range_go (fuel : nat) (i stop step : nat) : list nat :=
  match fuel with
  | O => []
  | S f => if Nat.ltb i stop then i :: range_go f (i + step) stop step else []
  end.

Definition range (start stop step : nat) : list nat :=
  range_go stop start stop step.

(** [l[i:j]] for non-negative [i <= j] *)
Definition slice {A} (l : list A) (i j : nat) : list A :=
  firstn (j - i) (skipn i l).

(** ** Keyboard builder ([build_dynamic_keyboard]) *)

Record InlineKeyboardButton := mkButton {
  btn_text : pystr;
  callback_data : pystr
}.

Definition InlineKeyboardMarkup := list (list InlineKeyboardButton).

Definition scout_prefix : pystr := lit "scout_".
Definition refresh_token : pystr := lit "refresh_trending".

(** ["🔄 Generate New Trends"] *)
Definition refresh_label : pystr := 128260 :: lit " Generate New Trends".

Definition refresh_button : InlineKeyboardButton :=
  mkButton refresh_label refresh_token.

(** The button made for one topic (body of the inner loop). *)
Definition topic_button (topic : pystr) : InlineKeyboardButton :=
  let safe_topic := prefix_slice topic 45 in
  mkButton topic (scout_prefix ++ safe_topic).

Definition build_dynamic_keyboard (trend_names : list pystr) : InlineKeyboardMarkup :=
  let keyboard :=
    map (fun i => map topic_button (slice trend_names i (i + 2)))
        (range 0 (List.length trend_names) 2) in
  keyboard ++ [[refresh_button]].

(** ** Callback decoder (the ["scout_"] branch of [button_handler]) *)

Definition decode_topic (data : pystr) : pystr := replace data scout_prefix [].

(** ** Collaborator outcomes and observable effects of [main.py]

    A fallible call either returns a value or raises an exception carrying
    its message. *)

Inductive result (A : Type) := Ok (a : A) | Raise (e : pystr).
Arguments Ok {A} a.
Arguments Raise {A} e.

Record Trend := mkTrend { name : pystr }.

(** Messages sent by the bot. The HTML rendering ([html.escape], [.title()])
    is kept abstract: a message is identified by which template it uses and
    with which dynamic values. *)
Inductive msg_text :=
| TxtNotInitialized
| TxtScanning
| TxtTrends (category subcat : pystr) (topics : list pystr)
| TxtNoTrends
| TxtError (e : pystr)
| TxtWelcome (first_name : pystr)
| TxtHelp.

(** Observable actions: transport calls, configuration and trend-engine
    calls. Every storage access of [main.py] goes through [ConfigInitialize]
    or [EngineFetch] (the engine holds the database client). *)
Inductive effect :=
| ReplyText (to_message : Z) (t : msg_text)
| EditStatus (reply_of : Z) (t : msg_text) (kb : option InlineKeyboardMarkup)
| AnswerCallback (text : option pystr) (show_alert : bool)
| ConfigInitialize
| EngineFetch (num_trends : Z) (category subcat : pystr) (topics urls : list pystr).

(** The process-wide collaborators: whether [_config_mgr] and
    [_trend_engine] are set, and what their calls return. *)
Record Env := mkEnv {
  initialized : bool;
  config_init_result : result unit;
  get_trends : Z * pystr * pystr * list pystr * list pystr;
  engine_result : result (list Trend);
  (** whether Telegram accepts an [edit_text] of the status reply with this
      text and keyboard, or raises (e.g. a [callback_data] over 64 bytes) *)
  edit_result : msg_text -> option InlineKeyboardMarkup -> result unit
}.

(** An [edit_text] inside the [try]: when it raises, the [except] branch
    edits the status reply once more with the error (an exception from that
    second edit leaves the handler, with no further effect). *)
Definition edit_in_try (env : Env) (m : Z) (t : msg_text) (kb : option InlineKeyboardMarkup)
    : list effect :=
  EditStatus m t kb ::
  match edit_result env t kb with
  | Ok _ => []
  | Raise e => [EditStatus m (TxtError e) None]
  end.

(** [trigger_trend_generation(message)]; [m] is the id of [message]. The
    status message is the reply sent to [m]; [EditStatus m] edits it. *)
Definition trigger_trend_generation (env : Env) (m : Z) : list effect :=
  if negb (initialized env) then [ReplyText m TxtNotInitialized]
  else
    ReplyText m TxtScanning ::
    ConfigInitialize ::
    match config_init_result env with
    | Raise e => [EditStatus m (TxtError e) None]
    | Ok _ =>
        let '(num_trends, category, subcat, topics, urls) := get_trends env in
        EngineFetch num_trends category subcat topics urls ::
        match engine_result env with
        | Raise e => [EditStatus m (TxtError e) None]
        | Ok trends =>
            match trends with
            | [] => edit_in_try env m TxtNoTrends None
            | _ :: _ =>
                let keyboard := build_dynamic_keyboard (map name trends) in
                edit_in_try env m (TxtTrends category subcat topics) (Some keyboard)
            end
        end
    end.

Record User := mkUser { user_id : Z; first_name : pystr }.

(** Inbound Telegram updates: a command message ([/command]), a callback
    query (button press) with its [effective_message] and [data], or
    anything else. *)
Inductive Update :=
| UCommand (user : option User) (message_id : Z) (command : pystr)
| UCallbackQuery (user : option User) (message : option Z) (data : option pystr)
| UOther.

Definition start_command (user : option User) (m : Z) : list effect :=
  match user with
  | None => []
  | Some u => [ReplyText m (TxtWelcome (first_name u))]
  end.

Definition help_command (m : Z) : list effect := [ReplyText m TxtHelp].

Definition trending_command (env : Env) (m : Z) : list effect :=
  trigger_trend_generation env m.

(** ["⛔ Access Denied"] *)
Definition access_denied : pystr := 9940 :: lit " Access Denied".

(** [f"Pipeline paused at Trend Engine.\n\nSelected: {topic}"] *)
Definition paused_text (topic : pystr) : pystr :=
  lit "Pipeline paused at Trend Engine." ++ [10; 10] ++ lit "Selected: " ++ topic.

Section Router.

Variable ADMIN_ID : Z.

Definition button_handler (env : Env) (user : option User) (message : option Z)
    (data : option pystr) : list effect :=
  match user, message with
  | Some u, Some m =>
      if negb (user_id u =? ADMIN_ID) then [AnswerCallback (Some access_denied) true]
      else
        match data with
        | None | Some [] => []
        | Some d =>
            if startswith d scout_prefix then
              let topic := decode_topic d in
              [AnswerCallback (Some (paused_text topic)) true]
            else if str_eqb d refresh_token then
              AnswerCallback None false :: trigger_trend_generation env m
            else []
        end
  | _, _ => []
  end.

(** [filters.User(user_id=ADMIN_ID)] *)
Definition admin_only (user : option User) : bool :=
  match user with Some u => user_id u =? ADMIN_ID | None => false end.

(** [Application.process_update] with the handlers registered in [lifespan]:
    three admin-only [CommandHandler]s, then a [CallbackQueryHandler] for
    every button press. The first handler that matches runs. *)
Definition process_update (env : Env) (u : Update) : list effect :=
  match u with
  | UCommand user m cmd =>
      if admin_only user then
        if str_eqb cmd (lit "start") then start_command user m
        else if str_eqb cmd (lit "help") then help_command m
        else if str_eqb cmd (lit "trending") then trending_command env m
        else []
      else []
  | UCallbackQuery user message data => button_handler env user message data
  | UOther => []
  end.

(** ** Webhook endpoint ([telegram_webhook]) *)

(** The request body: a JSON update envelope, or a JSON value that
    [Update.de_json] rejects. [None] stands for a body that is not JSON. *)
Inductive Json := JUpdate (u : Update) | JMalformed.

Definition de_json (j : Json) : option Update :=
  match j with JUpdate u => Some u | JMalformed => None end.

(** What the endpoint did with the request, in order. *)
Inductive webhook_step :=
| ReadJson
| DeJson
| ProcessUpdate (u : Update) (effs : list effect).

(** Python's [!=] on [Optional[str]]. *)
Definition opt_str_neqb (a b : option pystr) : bool :=
  match a, b with
  | None, None => false
  | Some x, Some y => negb (str_eqb x y)
  | _, _ => true
  end.

Definition telegram_webhook (env : Env) (SECRET_TOKEN : option pystr)
    (ptb_app : bool) (x_telegram_bot_api_secret_token : option pystr)
    (body : option Json) : Z * list webhook_step :=
  if opt_str_neqb x_telegram_bot_api_secret_token SECRET_TOKEN then (403, [])
  else
    match body with
    | None => (500, [ReadJson])
    | Some data =>
        if negb ptb_app then (500, [ReadJson])
        else
          match de_json data with
          | None => (500, [ReadJson; DeJson])
          | Some update => (200, [ReadJson; DeJson; ProcessUpdate update (process_update env update)])
          end
    end.

End Router.

(** ** Ingestion run ([scout_agent.run_scout]) *)

Module Scout.

(** A feed entry as [feedparser] returns it: attribute access to a missing
    [title] or [link] raises [AttributeError]; [summary] is guarded by
    [hasattr]. *)
Record Entry := mkEntry {
  e_title : option pystr;
  e_link : option pystr;
  e_summary : option pystr
}.

(** [feedparser.parse(feed_url)]: the entries, or an exception. *)
Inductive ParseResult := Parsed (entries : list Entry) | ParseError (e : pystr).

Record RawItem := mkItem {
  session_id : Z;
  source : pystr;
  title : pystr;
  url : pystr;
  summary : pystr
}.

(** Storage writes ([supabase.table(...).insert(...).execute()]). *)
Inductive db_write :=
| InsertSession (topic status : pystr)
| InsertRawNews (items : list RawItem).

Definition news_feeds : list pystr :=
  [lit "https://techcrunch.com/feed/";
   lit "https://www.theverge.com/rss/index.xml";
   lit "https://news.ycombinator.com/rss";
   lit "https://www.wired.com/feed/category/security/latest/rss"].

Definition reddit_search (sub topic : pystr) : pystr :=
  lit "https://www.reddit.com/r/" ++ sub ++ lit "/search.rss?q=" ++ topic
    ++ lit "&restrict_sr=1&sort=top&t=week".

Definition reddit_feeds (topic : pystr) : list pystr :=
  [reddit_search (lit "technology") topic;
   reddit_search (lit "artificial") topic;
   reddit_search (lit "programming") topic].

Definition all_feeds (topic : pystr) : list pystr := news_feeds ++ reddit_feeds topic.

(** The inner [for entry in feed.entries[:3]] loop. Items are appended one
    at a time; an exception while building an item leaves the items already
    appended in [collected_items] and returns its message. *)
Fixpoint append_entries (sid : Z) (feed_url : pystr) (es : list Entry)
    (collected : list RawItem) : list RawItem * option pystr :=
  match es with
  | [] => (collected, None)
  | e :: es' =>
      match e_title e with
      | None => (collected, Some (lit "AttributeError: title"))
      | Some t =>
          match e_link e with
          | None => (collected, Some (lit "AttributeError: link"))
          | Some l =>
              let item :=
                mkItem sid
                  (if contains feed_url (lit "reddit.com") then lit "Reddit" else lit "News")
                  t l
                  (match e_summary e with Some s => prefix_slice s 500 | None => [] end) in
              append_entries sid feed_url es' (collected ++ [item])
          end
      end
  end.

(** One iteration of the outer loop, with its [try]/[except]: the exception
    is printed and the loop goes on with [collected_items] as it is. *)
Definition scan_feed (parse : pystr -> ParseResult) (sid : Z)
    (collected : list RawItem) (feed_url : pystr) : list RawItem :=
  match parse feed_url with
  | ParseError _ => collected
  | Parsed entries => fst (append_entries sid feed_url (firstn 3 entries) collected)
  end.

Definition collect (parse : pystr -> ParseResult) (sid : Z) (feeds : list pystr)
    : list RawItem :=
  fold_left (scan_feed parse sid) feeds [].

(** [run_scout(topic)]: [sid] is the id the database returns for the new
    session row; the result is the returned pair and the storage writes. *)
Definition run_scout (parse : pystr -> ParseResult) (sid : Z) (topic : pystr)
    : (nat * Z) * list db_write :=
  let collected_items := collect parse sid (all_feeds topic) in
  let batch :=
    match collected_items with
    | [] => []
    | _ :: _ => [InsertRawNews collected_items]
    end in
  ((List.length collected_items, sid),
   InsertSession topic (lit "scouting") :: batch).

End Scout.

(** ** Application start-up ([lifespan], up to its [yield]) *)

(** Python truthiness of an [Optional[str]] environment variable. *)
Definition truthy (s : option pystr) : bool :=
  match s with Some (_ :: _) => true | _ => false end.

(** The observable steps of start-up. *)
Inductive startup_step :=
| LogNoToken
| WarnMissingKeys
| CreateClients
| InitConfig
| BuildBot (token : pystr)
| StartBot
| SetWebhook (url secret_token : pystr)
| WarnNoSecret
| StorePtbApp.

(** The outcomes of the awaited external calls of start-up; an exception
    from any of them propagates out of [lifespan] and aborts start-up. *)
Record StartupOutcomes := mkStartupOutcomes {
  (** [create_async_client], [AsyncTavilyClient] and [genai.Client]
      (which raise, for instance, on a missing key) *)
  clients_init : result unit;
  (** [ConfigManager.initialize] *)
  config_init : result unit;
  (** [_ptb_app.initialize()] and [_ptb_app.start()] (which raise, for
      instance, on a token Telegram rejects) *)
  bot_start : result unit;
  (** [_ptb_app.bot.set_webhook] *)
  webhook_set : result unit
}.

(** [lifespan(app)] until [yield]: the steps taken, and either the raised
    exception or whether [app.state.ptb_app] was set. [api_keys] are
    [SUPABASE_URL], [SUPABASE_KEY], [TAVILY_API_KEY], [GEMINI_API_KEY]. *)
Definition lifespan (TOKEN WEBHOOK_URL SECRET_TOKEN : option pystr)
    (api_keys : list (option pystr)) (o : StartupOutcomes)
    : list startup_step * result bool :=
  match TOKEN with
  | None | Some [] => ([LogNoToken], Ok false)
  | Some token =>
      let warn := if negb (forallb truthy api_keys) then [WarnMissingKeys] else [] in
      match clients_init o with
      | Raise e => (warn ++ [CreateClients], Raise e)
      | Ok _ =>
      match config_init o with
      | Raise e => (warn ++ [CreateClients; InitConfig], Raise e)
      | Ok _ =>
      match bot_start o with
      | Raise e => (warn ++ [CreateClients; InitConfig; BuildBot token; StartBot], Raise e)
      | Ok _ =>
          let started := warn ++ [CreateClients; InitConfig; BuildBot token; StartBot] in
          match WEBHOOK_URL, SECRET_TOKEN with
          | Some ((_ :: _) as url), Some ((_ :: _) as secret) =>
              let steps := started ++ [SetWebhook (url ++ lit "/webhook") secret] in
              match webhook_set o with
              | Raise e => (steps, Raise e)
              | Ok _ => (steps ++ [StorePtbApp], Ok true)
              end
          | Some (_ :: _), _ => (started ++ [WarnNoSecret; StorePtbApp], Ok true)
          | _, _ => (started ++ [StorePtbApp], Ok true)
          end
      end
      end
      end
  end.

(** ** Derived views and sample inputs *)

(** The trend rows, before the regenerate row is appended. *)
Definition trend_rows (trend_names : list pystr) : InlineKeyboardMarkup :=
  map (fun i => map topic_button (slice trend_names i (i + 2)))
      (range 0 (List.length trend_names) 2).

(** A regenerate control is a button carrying the static regenerate token. *)
Definition is_regenerate (b : InlineKeyboardButton) : bool :=
  str_eqb (callback_data b) refresh_token.

(** The principal of an update ([update.effective_user.id]). *)
Definition principal (u : Update) : option Z :=
  match u with
  | UCommand (Some usr) _ _ | UCallbackQuery (Some usr) _ _ => Some (user_id usr)
  | _ => None
  end.

(** A configuration with two trends, as in the spec's scenario. *)
Definition sample_env : Env :=
  mkEnv true (Ok tt) (4, lit "tech", lit "ai", [lit "llms"], [])
        (Ok [mkTrend (lit "Agentic IDEs"); mkTrend (lit "Small LLMs")])
        (fun _ _ => Ok tt).

(** An entry of a feed, and a feed whose second entry has no [title]. *)
Definition good_entry : Scout.Entry :=
  Scout.mkEntry (Some (lit "Zero-day in VPN appliances")) (Some (lit "https://techcrunch.com/a"))
    None.

Definition untitled_entry : Scout.Entry :=
  Scout.mkEntry None (Some (lit "https://techcrunch.com/b")) None.

(** TechCrunch serves [good_entry; untitled_entry; good_entry]; every other
    feed fails to parse. *)
Definition parse_untitled_second (feed_url : pystr) : Scout.ParseResult :=
  if str_eqb feed_url (lit "https://techcrunch.com/feed/")
  then Scout.Parsed [good_entry; untitled_entry; good_entry]
  else Scout.ParseError (lit "connection timed out").

(** The items one feed contributes when scanned on its own. *)
Definition feed_items (parse : pystr -> Scout.ParseResult) (sid : Z) (feed_url : pystr)
    : list Scout.RawItem :=
  match parse feed_url with
  | Scout.ParseError _ => []
  | Scout.Parsed entries => fst (Scout.append_entries sid feed_url (firstn 3 entries) [])
  end.

(** An entry whose [title] and [link] are present. *)
Definition wf_entry (e : Scout.Entry) : bool :=
  match Scout.e_title e, Scout.e_link e with Some _, Some _ => true | _, _ => false end.

(** Classifiers of the effects of [main.py]. *)
Definition is_reply (e : effect) : bool :=
  match e with ReplyText _ _ => true | _ => false end.

Definition is_edit (e : effect) : bool :=
  match e with EditStatus _ _ _ => true | _ => false end.

Definition is_answer (e : effect) : bool :=
  match e with AnswerCallback _ _ => true | _ => false end.

(** The chat message a reply answers or whose status reply an edit changes. *)
Definition message_target (e : effect) : option Z :=
  match e with
  | ReplyText m _ | EditStatus m _ _ => Some m
  | _ => None
  end.

(** The message an update comes with ([update.message] for commands,
    [update.effective_message] for button presses). *)
Definition update_message (u : Update) : option Z :=
  match u with
  | UCommand _ m _ => Some m
  | UCallbackQuery _ msg _ => msg
  | UOther => None
  end.

(** * Properties *)

(** ** Auxiliary lemmas on the string and list primitives *)

Lemma startswith_firstn (s p : pystr) (n : nat) :
  startswith (firstn n s) p = true -> startswith s p = true.
Proof.
  revert s n; induction p as [|c p IH]; intros s n H; [destruct s; reflexivity|].
  destruct n as [|n]; [discriminate|].
  destruct s as [|d s]; [discriminate|].
  simpl in *. apply andb_true_iff in H as [H1 H2].
  rewrite H1. simpl. eapply IH; eauto.
Qed.

Lemma contains_firstn (s p : pystr) (n : nat) :
  contains (firstn n s) p = true -> contains s p = true.
Proof.
  revert n; induction s as [|c s IH]; intros n H.
  - rewrite firstn_nil in H. exact H.
  - destruct n as [|n].
    + simpl in H. destruct p; [reflexivity|discriminate].
    + simpl in H |- *. apply orb_true_iff in H as [H|H].
      * apply orb_true_iff. left. exact (startswith_firstn (c :: s) p (S n) H).
      * apply orb_true_iff. right. eapply IH; eauto.
Qed.

(** Without an occurrence of [old], [replace] returns its argument. *)
Lemma replace_go_absent (fuel : nat) (s old new : pystr) :
  contains s old = false -> replace_go fuel s old new = s.
Proof.
  revert s; induction fuel as [|f IH]; intros s H; [reflexivity|].
  destruct s as [|c s].
  - destruct old; simpl in *; [discriminate|reflexivity].
  - simpl in H. apply orb_false_iff in H as [H1 H2].
    simpl. rewrite H1. f_equal. apply IH. exact H2.
Qed.

Lemma startswith_app (p t : pystr) : startswith (p ++ t) p = true.
Proof. induction p as [|c p IH]; simpl; [destruct t; reflexivity|]. rewrite Z.eqb_refl. exact IH. Qed.

(** Where the name's first 45 characters have no ["scout_"] inside,
    decoding the button's token gives back the name cut to 45 characters. *)
Lemma decode_topic_button_no_marker (topic : pystr) :
  contains (prefix_slice topic 45) scout_prefix = false ->
  decode_topic (callback_data (topic_button topic)) = prefix_slice topic 45.
Proof.
  intros H. unfold decode_topic, replace.
  change (callback_data (topic_button topic)) with (scout_prefix ++ prefix_slice topic 45).
  remember (prefix_slice topic 45) as x eqn:Ex.
  change (List.length (scout_prefix ++ x)) with (S (5 + List.length x)).
  unfold replace_go; fold replace_go.
  rewrite startswith_app.
  change (skipn (List.length scout_prefix) (scout_prefix ++ x)) with x.
  apply replace_go_absent. exact H.
Qed.

Lemma utf8_length_app (a b : pystr) :
  utf8_length (a ++ b) = utf8_length a + utf8_length b.
Proof.
  induction a as [|c a IH]; simpl; [reflexivity|]. rewrite IH. lia.
Qed.

Lemma utf8_length_ascii (s : pystr) :
  Forall (fun c => c < 128) s -> utf8_length s = Z.of_nat (List.length s).
Proof.
  induction 1 as [|c s Hc _ IH]; [reflexivity|].
  simpl utf8_length. rewrite IH. unfold utf8_len.
  replace (c <? 128) with true by (symmetry; apply Z.ltb_lt; exact Hc).
  rewrite length_cons, Nat2Z.inj_succ. lia.
Qed.

(** For names made of ASCII characters only, the token stays within 51
    bytes. *)
Lemma topic_button_ascii_bytes (topic : pystr) :
  Forall (fun c => c < 128) topic ->
  utf8_length (callback_data (topic_button topic)) <= 51.
Proof.
  intros H. change (callback_data (topic_button topic)) with (scout_prefix ++ prefix_slice topic 45).
  rewrite utf8_length_app, (utf8_length_ascii (prefix_slice topic 45)).
  - change (utf8_length scout_prefix) with 6.
    unfold prefix_slice. pose proof (firstn_le_length 45 topic). lia.
  - unfold prefix_slice.
    rewrite <- (firstn_skipn 45 topic) in H. apply Forall_app in H. tauto.
Qed.

(** ** Keyboard layout *)

Lemma range_go_step2 (fuel i stop : nat) :
  (stop <= i + fuel)%nat ->
  range_go fuel i stop 2 = map (fun k => i + 2 * k)%nat (seq 0 ((stop - i + 1) / 2)).
Proof.
  revert i; induction fuel as [|f IH]; intros i Hle.
  - replace (stop - i)%nat with 0%nat by lia. reflexivity.
  - simpl range_go. destruct (Nat.ltb_spec i stop) as [Hlt|Hge].
    + rewrite IH by lia.
      replace ((stop - i + 1) / 2)%nat with (S ((stop - (i + 2) + 1) / 2)).
      * simpl seq. simpl map. f_equal; [lia|].
        rewrite <- seq_shift, map_map. apply map_ext. intros k. lia.
      * destruct (Nat.eq_dec (stop - i) 1) as [E|E].
        -- rewrite E. replace (stop - (i + 2))%nat with 0%nat by lia. reflexivity.
        -- replace (stop - i + 1)%nat with ((stop - (i + 2) + 1) + 1 * 2)%nat by lia.
           rewrite Nat.div_add by lia. lia.
    + replace (stop - i)%nat with 0%nat by lia. reflexivity.
Qed.

Lemma range_0_step2 (n : nat) :
  range 0 n 2 = map (fun k => 2 * k)%nat (seq 0 ((n + 1) / 2)).
Proof.
  unfold range. rewrite range_go_step2 by lia. rewrite Nat.sub_0_r. reflexivity.
Qed.

Lemma build_dynamic_keyboard_rows (trend_names : list pystr) :
  build_dynamic_keyboard trend_names = trend_rows trend_names ++ [[refresh_button]].
Proof. reflexivity. Qed.

Lemma trend_rows_seq (l : list pystr) :
  trend_rows l =
  map (fun k => map topic_button (firstn 2 (skipn (2 * k) l)))
      (seq 0 ((List.length l + 1) / 2)).
Proof.
  unfold trend_rows. rewrite range_0_step2, map_map. apply map_ext. intros k.
  unfold slice. replace (2 * k + 2 - 2 * k)%nat with 2%nat by lia. reflexivity.
Qed.

Lemma concat_pairs {A} (l : list A) :
  List.concat (map (fun k => firstn 2 (skipn (2 * k) l)) (seq 0 ((List.length l + 1) / 2))) = l.
Proof.
  remember (List.length l) as n eqn:En.
  revert l En; induction n as [n IH] using (well_founded_induction lt_wf); intros l En.
  destruct l as [|a [|b l]].
  - subst n. reflexivity.
  - subst n. reflexivity.
  - subst n. simpl List.length.
    replace ((S (S (List.length l)) + 1) / 2)%nat with (S ((List.length l + 1) / 2)).
    + set (m := ((List.length l + 1) / 2)%nat).
      cbn [seq map]. rewrite <- seq_shift, map_map. cbn [List.concat].
      change (firstn 2 (skipn (2 * 0) (a :: b :: l))) with [a; b].
      cbn [app]. f_equal. f_equal.
      transitivity (List.concat (map (fun k => firstn 2 (skipn (2 * k) l)) (seq 0 m))).
      * f_equal. apply map_ext. intros k.
        replace (2 * S k)%nat with (S (S (2 * k))) by lia. reflexivity.
      * apply (IH (List.length l)); [simpl; lia | reflexivity].
    + replace (S (S (List.length l)) + 1)%nat with ((List.length l + 1) + 1 * 2)%nat by lia.
      rewrite Nat.div_add by lia. lia.
Qed.

Lemma concat_trend_rows (l : list pystr) :
  List.concat (trend_rows l) = map topic_button l.
Proof.
  rewrite trend_rows_seq.
  rewrite <- (map_map (fun k => firstn 2 (skipn (2 * k) l)) (map topic_button)).
  rewrite <- concat_map. rewrite concat_pairs. reflexivity.
Qed.

Lemma length_trend_rows (l : list pystr) :
  List.length (trend_rows l) = ((List.length l + 1) / 2)%nat.
Proof. rewrite trend_rows_seq, length_map, length_seq. reflexivity. Qed.

Lemma nth_trend_rows (l : list pystr) (k : nat) :
  (k < (List.length l + 1) / 2)%nat ->
  nth k (trend_rows l) [] = map topic_button (firstn 2 (skipn (2 * k) l)).
Proof.
  intros Hk. rewrite trend_rows_seq.
  set (f := fun k => map topic_button (firstn 2 (skipn (2 * k) l))).
  transitivity (f (nth k (seq 0 ((List.length l + 1) / 2)) 0%nat)).
  - rewrite <- (map_nth f (seq 0 ((List.length l + 1) / 2)) 0%nat k).
    apply nth_indep. rewrite length_map, length_seq. exact Hk.
  - rewrite seq_nth by exact Hk. reflexivity.
Qed.

Lemma topic_button_not_regenerate (t : pystr) : is_regenerate (topic_button t) = false.
Proof.
  unfold is_regenerate, str_eqb.
  destruct (list_eq_dec Z.eq_dec _ _) as [E|E]; [|reflexivity].
  change (callback_data (topic_button t)) with (115 :: lit "cout_" ++ prefix_slice t 45) in E.
  change refresh_token with (114 :: lit "efresh_trending") in E.
  injection E as E. discriminate E.
Qed.

(** ** Claims about the callback encoder and the keyboard builder *)

(** C1 (code defect): the decoder is [data.replace("scout_", "")], which
    removes every occurrence of ["scout_"], not only the prefix. For the
    trend name ["scout_ai"] (8 characters, so not truncated) the token is
    ["scout_scout_ai"] and decoding it yields ["ai"], not the name. *)
Theorem C1_decode_encode_scout_ai :
  decode_topic (callback_data (topic_button (lit "scout_ai"))) = lit "ai" /\
  decode_topic (callback_data (topic_button (lit "scout_ai")))
    <> prefix_slice (lit "scout_ai") 45.
Proof.
  split.
  - vm_compute. reflexivity.
  - vm_compute. discriminate.
Qed.

(** C2 (code defect): the name is cut to 45 characters, not bytes. The
    name made of 45 copies of ["é"] (U+00E9, two bytes in UTF-8) gives the
    token ["scout_" + name] of 96 bytes, above the 64-byte limit stated in
    the code's own comment. *)
Theorem C2_callback_bytes_e_acute :
  utf8_length (callback_data (topic_button (repeat 233 45))) = 96 /\
  utf8_length (callback_data (topic_button (repeat 233 45))) > 64.
Proof. split; vm_compute; reflexivity. Qed.

(** C4: for every list of trend names, including the empty one, the
    keyboard ends with a row holding only the regenerate button, whose token
    is the static ["refresh_trending"], and exactly one button of the whole
    keyboard carries that token. *)
Theorem C4_single_regenerate_last_row (trend_names : list pystr) :
  last (build_dynamic_keyboard trend_names) [] = [refresh_button] /\
  callback_data refresh_button = lit "refresh_trending" /\
  List.length (filter is_regenerate (List.concat (build_dynamic_keyboard trend_names))) = 1%nat.
Proof.
  rewrite build_dynamic_keyboard_rows. split; [|split].
  - apply last_last.
  - reflexivity.
  - rewrite concat_app, concat_trend_rows, filter_app.
    replace (filter is_regenerate (map topic_button trend_names)) with (@nil InlineKeyboardButton).
    + reflexivity.
    + induction trend_names as [|t ts IH]; [reflexivity|].
      cbn [map filter]. rewrite topic_button_not_regenerate. exact IH.
Qed.

(** C5: the trend rows (all rows but the appended regenerate row) hold the
    buttons of the names in input order, none dropped, reordered or merged;
    there are ceil(n/2) of them, and row [k] holds [min 2 (n - 2k)] buttons,
    i.e. two per row with a single one last when [n] is odd. *)
Theorem C5_two_per_row_in_order (trend_names : list pystr) :
  let rows := trend_rows trend_names in
  let n := List.length trend_names in
  (build_dynamic_keyboard trend_names = rows ++ [[refresh_button]]) /\
  (List.concat rows = map topic_button trend_names) /\
  (map btn_text (List.concat rows) = trend_names) /\
  (List.length rows = (n + 1) / 2)%nat /\
  (forall k, (k < List.length rows)%nat ->
     List.length (nth k rows []) = Nat.min 2 (n - 2 * k)).
Proof.
  intros rows n. split; [|split; [|split; [|split]]].
  - apply build_dynamic_keyboard_rows.
  - apply concat_trend_rows.
  - unfold rows. rewrite concat_trend_rows, map_map. simpl. apply map_id.
  - apply length_trend_rows.
  - intros k Hk. unfold rows in *. rewrite length_trend_rows in Hk.
    rewrite nth_trend_rows by exact Hk.
    rewrite length_map, length_firstn, length_skipn. reflexivity.
Qed.

(** ** Router and webhook *)

Lemma str_eqb_spec (a b : pystr) : str_eqb a b = true <-> a = b.
Proof.
  unfold str_eqb. destruct (list_eq_dec Z.eq_dec a b); split; congruence.
Qed.

Lemma opt_str_neqb_spec (a b : option pystr) : opt_str_neqb a b = true <-> a <> b.
Proof.
  destruct a as [x|], b as [y|]; simpl.
  - rewrite negb_true_iff. split.
    + intros H E. injection E as ->.
      rewrite (proj2 (str_eqb_spec y y) eq_refl) in H. discriminate.
    + intros H. destruct (str_eqb x y) eqn:E; [|reflexivity].
      apply str_eqb_spec in E. congruence.
  - split; congruence.
  - split; congruence.
  - split; [discriminate | intros H; exfalso; apply H; reflexivity].
Qed.

(** C3, as the code has it: an update from a principal other than
    [ADMIN_ID] starts no trend generation, calls neither the configuration
    nor the engine and sends or edits no message. A button press that has a
    message gets exactly the ["⛔ Access Denied"] alert; a command matches no
    handler (they are registered with the admin-only filter) and gets no
    reply at all, and a button press without a message is dropped. *)
Theorem C3_unauthorized_effects (ADMIN_ID : Z) (env : Env) (u : Update) (p : Z) :
  principal u = Some p -> p <> ADMIN_ID ->
  process_update ADMIN_ID env u =
  match u with
  | UCallbackQuery _ (Some _) _ => [AnswerCallback (Some access_denied) true]
  | _ => []
  end.
Proof.
  intros Hp Hne.
  destruct u as [[usr|] m cmd|[usr|] [m|] data|]; simpl in Hp; try discriminate;
    injection Hp as Hp; subst p; simpl; unfold admin_only;
    replace (user_id usr =? ADMIN_ID) with false by (symmetry; apply Z.eqb_neq; exact Hne);
    reflexivity.
Qed.

Lemma C3_unauthorized_effects_witness :
  principal (UCallbackQuery (Some (mkUser 7 (lit "eve"))) (Some 10) (Some refresh_token)) = Some 7 /\
  process_update 1 sample_env
    (UCallbackQuery (Some (mkUser 7 (lit "eve"))) (Some 10) (Some refresh_token))
  = [AnswerCallback (Some access_denied) true].
Proof.
  split; [reflexivity|].
  exact (C3_unauthorized_effects 1 sample_env
           (UCallbackQuery (Some (mkUser 7 (lit "eve"))) (Some 10) (Some refresh_token)) 7
           eq_refl ltac:(discriminate)).
Defined.

(** C3 as stated fails: the [/trending] command of a non-admin user
    produces no rejection notice at all. *)
Lemma C3_command_no_notice :
  process_update 1 sample_env (UCommand (Some (mkUser 7 (lit "eve"))) 10 (lit "trending")) = [] /\
  ~ In (AnswerCallback (Some access_denied) true)
       (process_update 1 sample_env (UCommand (Some (mkUser 7 (lit "eve"))) 10 (lit "trending"))).
Proof. split; vm_compute; [reflexivity | intros []]. Qed.

(** C6: for a button press of the admin on a message [m]: a token that
    starts with ["scout_"] is answered with the callback answer (shown as an
    alert, [show_alert=True]) ["Pipeline paused at Trend Engine.\n\nSelected:
    <payload>"], where the payload is the decoded token, and nothing else
    happens; the token ["refresh_trending"] is answered silently and then
    gives exactly the effects of the [/trending] command sent on [m]. A press
    of the admin that carries no message is dropped: it is not answered and
    has no effect, whatever its token. *)
Theorem C6_authorized_button (ADMIN_ID : Z) (env : Env) (usr : User) (m : Z) (d : pystr) :
  user_id usr = ADMIN_ID ->
  (startswith d scout_prefix = true ->
   process_update ADMIN_ID env (UCallbackQuery (Some usr) (Some m) (Some d)) =
   [AnswerCallback (Some (lit "Pipeline paused at Trend Engine." ++ [10; 10]
                          ++ lit "Selected: " ++ decode_topic d)) true]) /\
  process_update ADMIN_ID env (UCallbackQuery (Some usr) (Some m) (Some refresh_token)) =
  AnswerCallback None false :: process_update ADMIN_ID env (UCommand (Some usr) m (lit "trending")) /\
  forall data, process_update ADMIN_ID env (UCallbackQuery (Some usr) None data) = [].
Proof.
  intros Hadm. split; [|split; [|intros data; reflexivity]].
  - intros Hs. simpl. rewrite Hadm, Z.eqb_refl. simpl.
    destruct d as [|c d']; [discriminate|]. rewrite Hs. reflexivity.
  - simpl. unfold admin_only. rewrite Hadm, Z.eqb_refl. reflexivity.
Qed.

Lemma C6_authorized_button_witness :
  user_id (mkUser 1 (lit "admin")) = 1 /\
  process_update 1 sample_env
    (UCallbackQuery (Some (mkUser 1 (lit "admin"))) (Some 10) (Some (lit "scout_Small LLMs")))
  = [AnswerCallback (Some (paused_text (lit "Small LLMs"))) true].
Proof.
  split; [reflexivity|].
  destruct (C6_authorized_button 1 sample_env (mkUser 1 (lit "admin")) 10
              (lit "scout_Small LLMs") eq_refl) as [H _].
  rewrite (H eq_refl). vm_compute. reflexivity.
Defined.

(** C6 as stated fails for an admin press without a message
    ([update.effective_message] is [None]): neither a ["scout_"] token nor
    the regenerate token is acknowledged, and nothing else happens. *)
Lemma C6_no_message_no_ack :
  process_update 1 sample_env
    (UCallbackQuery (Some (mkUser 1 (lit "admin"))) None (Some (lit "scout_Small LLMs"))) = [] /\
  process_update 1 sample_env
    (UCallbackQuery (Some (mkUser 1 (lit "admin"))) None (Some refresh_token)) = [].
Proof. split; vm_compute; reflexivity. Qed.

(** C9: a webhook request whose secret header differs from the configured
    secret is answered 403, and its body is neither read, deserialized nor
    dispatched. *)
Theorem C9_bad_secret_403 (ADMIN_ID : Z) (env : Env) (SECRET_TOKEN : option pystr)
    (ptb_app : bool) (header : option pystr) (body : option Json) :
  header <> SECRET_TOKEN ->
  telegram_webhook ADMIN_ID env SECRET_TOKEN ptb_app header body = (403, []).
Proof.
  intros Hne. unfold telegram_webhook.
  apply opt_str_neqb_spec in Hne. rewrite Hne. reflexivity.
Qed.

Lemma C9_bad_secret_403_witness :
  Some (lit "wrong") <> Some (lit "s3cret") /\
  telegram_webhook 1 sample_env (Some (lit "s3cret")) true (Some (lit "wrong"))
    (Some (JUpdate (UCommand (Some (mkUser 1 (lit "admin"))) 10 (lit "trending")))) = (403, []).
Proof.
  split; [vm_compute; discriminate|].
  apply C9_bad_secret_403. vm_compute. discriminate.
Defined.

(** C10: with no secret configured, a request without the header passes the
    check: it is never answered 403, and with the application initialised a
    well-formed update is deserialized and dispatched to the router. *)
Theorem C10_no_secret_passes (ADMIN_ID : Z) (env : Env) :
  (forall ptb_app body, fst (telegram_webhook ADMIN_ID env None ptb_app None body) <> 403) /\
  (forall u, telegram_webhook ADMIN_ID env None true None (Some (JUpdate u)) =
             (200, [ReadJson; DeJson; ProcessUpdate u (process_update ADMIN_ID env u)])).
Proof.
  split.
  - intros [] [[u|]|]; simpl; discriminate.
  - intros u. reflexivity.
Qed.

(** ** Ingestion run *)

(** C7: every run writes one session row first; when no item is collected
    (for instance when every feed raises) it writes nothing more and returns
    [(0, sid)]; otherwise it writes the whole collected batch in one insert
    and returns its size. *)
Theorem C7_run_scout_writes (parse : pystr -> Scout.ParseResult) (sid : Z) (topic : pystr) :
  let collected := Scout.collect parse sid (Scout.all_feeds topic) in
  ((collected = [] /\
    Scout.run_scout parse sid topic =
    ((0%nat, sid), [Scout.InsertSession topic (lit "scouting")])) \/
   (collected <> [] /\
    Scout.run_scout parse sid topic =
    ((List.length collected, sid),
     [Scout.InsertSession topic (lit "scouting"); Scout.InsertRawNews collected]))) /\
  Scout.run_scout (fun _ => Scout.ParseError (lit "connection timed out")) sid topic =
  ((0%nat, sid), [Scout.InsertSession topic (lit "scouting")]).
Proof.
  intros collected. split; [|reflexivity].
  unfold Scout.run_scout. fold collected.
  destruct collected as [|it rest] eqn:Ec.
  - left. split; reflexivity.
  - right. split; [discriminate|reflexivity].
Qed.

(** What the code does guarantee per feed: one iteration of the feed loop
    only appends to the items of the feeds before it, and at most three. *)
Lemma append_entries_extends (sid : Z) (feed_url : pystr) (es : list Scout.Entry)
    (acc : list Scout.RawItem) :
  exists new, fst (Scout.append_entries sid feed_url es acc) = acc ++ new /\
              (List.length new <= List.length es)%nat.
Proof.
  revert acc; induction es as [|e es IH]; intros acc; simpl.
  - exists []. rewrite app_nil_r. split; [reflexivity|simpl; lia].
  - destruct (Scout.e_title e) as [t|]; [|exists []; rewrite app_nil_r; simpl; split; [reflexivity|lia]].
    destruct (Scout.e_link e) as [l|]; [|exists []; rewrite app_nil_r; simpl; split; [reflexivity|lia]].
    match goal with
    | |- context [Scout.append_entries sid feed_url es (acc ++ [?it])] =>
        destruct (IH (acc ++ [it])) as [new [Hn Hl]]; exists (it :: new)
    end.
    rewrite Hn, <- app_assoc. split; [reflexivity|simpl; lia].
Qed.

Lemma scan_feed_extends (parse : pystr -> Scout.ParseResult) (sid : Z)
    (acc : list Scout.RawItem) (feed_url : pystr) :
  exists new, Scout.scan_feed parse sid acc feed_url = acc ++ new /\
              (List.length new <= 3)%nat.
Proof.
  unfold Scout.scan_feed. destruct (parse feed_url) as [es|e].
  - destruct (append_entries_extends sid feed_url (firstn 3 es) acc) as [new [Hn Hl]].
    exists new. split; [exact Hn|]. pose proof (firstn_le_length 3 es). lia.
  - exists []. rewrite app_nil_r. split; [reflexivity|simpl; lia].
Qed.

(** C8 (code defect): the [AttributeError] raised on TechCrunch's second
    entry is caught, but the item appended from its first entry stays in the
    batch: the failing feed contributes one item, not zero. *)
Theorem C8_failing_feed_keeps_items :
  Scout.collect parse_untitled_second 42 (Scout.all_feeds (lit "cybersecurity")) =
  [Scout.mkItem 42 (lit "News") (lit "Zero-day in VPN appliances")
     (lit "https://techcrunch.com/a") []] /\
  Scout.run_scout parse_untitled_second 42 (lit "cybersecurity") =
  ((1%nat, 42),
   [Scout.InsertSession (lit "cybersecurity") (lit "scouting");
    Scout.InsertRawNews [Scout.mkItem 42 (lit "News") (lit "Zero-day in VPN appliances")
                           (lit "https://techcrunch.com/a") []]]).
Proof. split; vm_compute; reflexivity. Qed.

(** * Further properties of the code *)

(** ** Ingestion run: per-feed contributions *)

Lemma append_entries_acc (sid : Z) (feed_url : pystr) (es : list Scout.Entry)
    (acc : list Scout.RawItem) :
  fst (Scout.append_entries sid feed_url es acc) =
  acc ++ fst (Scout.append_entries sid feed_url es []).
Proof.
  revert acc; induction es as [|e es IH]; intros acc; simpl.
  - rewrite app_nil_r. reflexivity.
  - destruct (Scout.e_title e) as [t|]; [|simpl; rewrite app_nil_r; reflexivity].
    destruct (Scout.e_link e) as [l|]; [|simpl; rewrite app_nil_r; reflexivity].
    rewrite IH. rewrite (IH [_]). rewrite app_assoc. reflexivity.
Qed.

Lemma scan_feed_app (parse : pystr -> Scout.ParseResult) (sid : Z)
    (acc : list Scout.RawItem) (feed_url : pystr) :
  Scout.scan_feed parse sid acc feed_url = acc ++ feed_items parse sid feed_url.
Proof.
  unfold Scout.scan_feed, feed_items. destruct (parse feed_url) as [es|e].
  - apply append_entries_acc.
  - rewrite app_nil_r. reflexivity.
Qed.

(** the batch is the concatenation, in feed order, of what each feed
    contributes when scanned on its own: a feed's items depend on that feed
    alone, whatever the other feeds return or raise. *)
Theorem collect_per_feed (parse : pystr -> Scout.ParseResult) (sid : Z) (feeds : list pystr) :
  Scout.collect parse sid feeds = flat_map (feed_items parse sid) feeds.
Proof.
  unfold Scout.collect.
  assert (H : forall acc, fold_left (Scout.scan_feed parse sid) feeds acc =
                          acc ++ flat_map (feed_items parse sid) feeds).
  { induction feeds as [|u us IH]; intros acc; simpl.
    - rewrite app_nil_r. reflexivity.
    - rewrite IH, scan_feed_app, app_assoc. reflexivity. }
  apply H.
Qed.

Lemma feed_items_le_3 (parse : pystr -> Scout.ParseResult) (sid : Z) (feed_url : pystr) :
  (List.length (feed_items parse sid feed_url) <= 3)%nat.
Proof.
  unfold feed_items. destruct (parse feed_url) as [es|e]; [|simpl; lia].
  destruct (append_entries_extends sid feed_url (firstn 3 es) []) as [new [Hn Hl]].
  rewrite Hn. simpl. pose proof (firstn_le_length 3 es). lia.
Qed.

(** a run collects at most 3 items per feed, so at most 21 items over
    its seven feeds, for every topic. *)
Theorem run_scout_at_most_21 (parse : pystr -> Scout.ParseResult) (sid : Z) (topic : pystr) :
  (List.length (Scout.collect parse sid (Scout.all_feeds topic)) <= 21)%nat /\
  (fst (fst (Scout.run_scout parse sid topic)) <= 21)%nat.
Proof.
  assert (H : (List.length (Scout.collect parse sid (Scout.all_feeds topic)) <= 21)%nat).
  { rewrite collect_per_feed. unfold Scout.all_feeds, Scout.news_feeds, Scout.reddit_feeds.
    cbn [app flat_map]. rewrite !length_app.
    repeat match goal with
           | |- context [List.length (feed_items parse sid ?u)] =>
               let H := fresh in pose proof (feed_items_le_3 parse sid u) as H;
               generalize dependent (List.length (feed_items parse sid u))
           end.
    simpl. intros. lia. }
  split; [exact H|]. simpl. exact H.
Qed.

(** The source tag [run_scout] gives to items of a feed. *)
Lemma append_entries_items (sid : Z) (feed_url : pystr) (es : list Scout.Entry)
    (acc : list Scout.RawItem) (it : Scout.RawItem) :
  In it (fst (Scout.append_entries sid feed_url es acc)) ->
  In it acc \/
  (Scout.session_id it = sid /\
   Scout.source it = (if contains feed_url (lit "reddit.com") then lit "Reddit" else lit "News") /\
   (List.length (Scout.summary it) <= 500)%nat /\
   exists e, In e es /\ Scout.e_title e = Some (Scout.title it) /\
             Scout.e_link e = Some (Scout.url it)).
Proof.
  revert acc; induction es as [|e es IH]; intros acc Hin; cbn [Scout.append_entries] in Hin.
  - left. exact Hin.
  - destruct (Scout.e_title e) as [t|] eqn:Et; [|left; exact Hin].
    destruct (Scout.e_link e) as [l|] eqn:El; [|left; exact Hin].
    destruct (IH _ Hin) as [H|[H1 [H2 [H3 [e' [He' [Ht Hl]]]]]]].
    + apply in_app_or in H as [H|[H|[]]]; [left; exact H|].
      right. subst it. cbn [Scout.session_id Scout.source Scout.summary Scout.title Scout.url].
      split; [reflexivity|]. split; [reflexivity|]. split.
      * destruct (Scout.e_summary e) as [s|]; [apply firstn_le_length|simpl; lia].
      * exists e. split; [left; reflexivity|]. split; assumption.
    + right. repeat split; try assumption. exists e'. split; [right; exact He'|].
      split; assumption.
Qed.

(** every collected item carries the run's session id, a summary of at
    most 500 characters, and the title and link of one of the first three
    entries of a feed of the run that parsed; its source tag is ["Reddit"]
    when that feed's URL contains ["reddit.com"] and ["News"] otherwise. *)
Theorem collected_item_origin (parse : pystr -> Scout.ParseResult) (sid : Z) (topic : pystr)
    (it : Scout.RawItem) :
  In it (Scout.collect parse sid (Scout.all_feeds topic)) ->
  Scout.session_id it = sid /\
  (List.length (Scout.summary it) <= 500)%nat /\
  exists feed_url entries e,
    In feed_url (Scout.all_feeds topic) /\ parse feed_url = Scout.Parsed entries /\
    In e (firstn 3 entries) /\
    Scout.e_title e = Some (Scout.title it) /\ Scout.e_link e = Some (Scout.url it) /\
    Scout.source it =
      (if contains feed_url (lit "reddit.com") then lit "Reddit" else lit "News").
Proof.
  rewrite collect_per_feed. intros Hin. apply in_flat_map in Hin as [u [Hu Hit]].
  unfold feed_items in Hit. destruct (parse u) as [es|ex] eqn:Hp; [|destruct Hit].
  destruct (append_entries_items sid u (firstn 3 es) [] it Hit)
    as [[]|[H1 [H2 [H3 [e [He [Ht Hl]]]]]]].
  split; [exact H1|]. split; [exact H3|].
  exists u, es, e. repeat split; assumption.
Qed.

Lemma collected_item_origin_witness :
  In (Scout.mkItem 42 (lit "News") (lit "Zero-day in VPN appliances")
        (lit "https://techcrunch.com/a") [])
     (Scout.collect parse_untitled_second 42 (Scout.all_feeds (lit "cybersecurity"))) /\
  Scout.session_id (Scout.mkItem 42 (lit "News") (lit "Zero-day in VPN appliances")
                      (lit "https://techcrunch.com/a") []) = 42.
Proof.
  assert (H : In (Scout.mkItem 42 (lit "News") (lit "Zero-day in VPN appliances")
                    (lit "https://techcrunch.com/a") [])
                 (Scout.collect parse_untitled_second 42 (Scout.all_feeds (lit "cybersecurity"))))
    by (vm_compute; left; reflexivity).
  split; [exact H|].
  exact (proj1 (collected_item_origin parse_untitled_second 42 (lit "cybersecurity") _ H)).
Defined.

Lemma startswith_app_l (a b p : pystr) :
  startswith a p = true -> startswith (a ++ b) p = true.
Proof.
  revert a; induction p as [|c p IH]; intros a H; [destruct (a ++ b); reflexivity|].
  destruct a as [|d a]; [discriminate|]. simpl in *.
  apply andb_true_iff in H as [H1 H2]. rewrite H1. simpl. apply IH. exact H2.
Qed.

Lemma contains_app_l (a b p : pystr) :
  contains a p = true -> contains (a ++ b) p = true.
Proof.
  induction a as [|c a IH]; intros H.
  - simpl in H. destruct p; [destruct b; reflexivity|discriminate].
  - simpl in H |- *. apply orb_true_iff in H as [H|H]; apply orb_true_iff.
    + left. exact (startswith_app_l (c :: a) b p H).
    + right. apply IH. exact H.
Qed.

Lemma feed_items_source (parse : pystr -> Scout.ParseResult) (sid : Z) (feed_url : pystr) :
  Forall (fun it => Scout.source it =
            if contains feed_url (lit "reddit.com") then lit "Reddit" else lit "News")
         (feed_items parse sid feed_url).
Proof.
  apply Forall_forall. intros it Hit. unfold feed_items in Hit.
  destruct (parse feed_url) as [es|ex]; [|destruct Hit].
  destruct (append_entries_items sid feed_url (firstn 3 es) [] it Hit)
    as [[]|[_ [H _]]]. exact H.
Qed.

(** for every topic, the items of the four news feeds are tagged
    ["News"] and those of the three Reddit searches ["Reddit"] (the topic
    is pasted into the Reddit URLs only, after ["reddit.com"]). *)
Theorem source_tags (parse : pystr -> Scout.ParseResult) (sid : Z) (topic : pystr) :
  Forall (fun u => Forall (fun it => Scout.source it = lit "News") (feed_items parse sid u))
         Scout.news_feeds /\
  Forall (fun u => Forall (fun it => Scout.source it = lit "Reddit") (feed_items parse sid u))
         (Scout.reddit_feeds topic).
Proof.
  split; apply Forall_forall; intros u Hu; pose proof (feed_items_source parse sid u) as H.
  - replace (contains u (lit "reddit.com")) with false in H; [exact H|].
    simpl in Hu. symmetry.
    repeat (destruct Hu as [<-|Hu]; [vm_compute; reflexivity|]). destruct Hu.
  - replace (contains u (lit "reddit.com")) with true in H; [exact H|].
    symmetry. unfold Scout.reddit_feeds, Scout.reddit_search in Hu.
    assert (Hr : contains (lit "https://www.reddit.com/r/") (lit "reddit.com") = true)
      by (vm_compute; reflexivity).
    cbn [In] in Hu.
    repeat (destruct Hu as [<-|Hu]; [apply contains_app_l; exact Hr|]). destruct Hu.
Qed.

Lemma append_entries_wf_titles (sid : Z) (feed_url : pystr) (es : list Scout.Entry) :
  forallb wf_entry es = true ->
  map (fun it => Some (Scout.title it)) (fst (Scout.append_entries sid feed_url es [])) =
  map Scout.e_title es.
Proof.
  induction es as [|e es IH]; intros Hwf; [reflexivity|].
  simpl in Hwf. apply andb_true_iff in Hwf as [He Hes].
  unfold wf_entry in He.
  destruct (Scout.e_title e) as [t|] eqn:Et; [|discriminate].
  destruct (Scout.e_link e) as [l|] eqn:El; [|discriminate].
  cbn [Scout.append_entries]. rewrite Et, El.
  rewrite append_entries_acc. cbn [app map]. rewrite Et, (IH Hes). reflexivity.
Qed.

(** a feed that parses and whose first three entries all have a title
    and a link contributes one item per entry among its first three, in the
    feed's order, with the entries' titles. *)
Theorem wf_feed_items (parse : pystr -> Scout.ParseResult) (sid : Z) (feed_url : pystr)
    (entries : list Scout.Entry) :
  parse feed_url = Scout.Parsed entries ->
  forallb wf_entry (firstn 3 entries) = true ->
  map (fun it => Some (Scout.title it)) (feed_items parse sid feed_url) =
  map Scout.e_title (firstn 3 entries) /\
  List.length (feed_items parse sid feed_url) = Nat.min 3 (List.length entries).
Proof.
  intros Hp Hwf. unfold feed_items. rewrite Hp.
  pose proof (append_entries_wf_titles sid feed_url (firstn 3 entries) Hwf) as H.
  split; [exact H|].
  apply (f_equal (@List.length _)) in H. rewrite !length_map, length_firstn in H.
  exact H.
Qed.

Lemma wf_feed_items_witness :
  forallb wf_entry (firstn 3 [good_entry; good_entry; good_entry; good_entry]) = true /\
  List.length (feed_items (fun _ => Scout.Parsed [good_entry; good_entry; good_entry; good_entry])
                 7 (lit "https://techcrunch.com/feed/")) = 3%nat.
Proof.
  split; [vm_compute; reflexivity|].
  exact (proj2 (wf_feed_items (fun _ => Scout.Parsed [good_entry; good_entry; good_entry; good_entry])
                  7 (lit "https://techcrunch.com/feed/")
                  [good_entry; good_entry; good_entry; good_entry] eq_refl eq_refl)).
Defined.

(** ** Trend generation flow *)

Lemma edit_in_try_edits (env : Env) (m : Z) (t : msg_text) (kb : option InlineKeyboardMarkup)
    (x : effect) :
  In x (edit_in_try env m t kb) -> is_edit x = true.
Proof.
  unfold edit_in_try. destruct (edit_result env t kb) as [[]|e]; simpl; intros H;
    repeat (destruct H as [<-|H]; [reflexivity|]); destruct H.
Qed.

(** [trigger_trend_generation] calls the trend engine exactly when the
    collaborators are initialised and [ConfigManager.initialize] returned,
    and then with the targets of [get_trends()]. *)
Theorem trigger_engine_call (env : Env) (m num_trends : Z) (category subcat : pystr)
    (topics urls : list pystr) :
  In (EngineFetch num_trends category subcat topics urls) (trigger_trend_generation env m) <->
  initialized env = true /\ config_init_result env = Ok tt /\
  get_trends env = (num_trends, category, subcat, topics, urls).
Proof.
  unfold trigger_trend_generation.
  destruct (initialized env); cbn.
  2: { split; [intros [H|[]]; discriminate | intros [H _]; discriminate]. }
  destruct (config_init_result env) as [[]|e]; cbn.
  - destruct (get_trends env) as [[[[n' c'] s'] t'] u'].
    split.
    + intros H.
      destruct H as [H|[H|[H|H]]]; try discriminate.
      * injection H as -> -> -> -> ->. auto.
      * destruct (engine_result env) as [[|tr trs]|e]; cbn beta iota in H;
          [apply edit_in_try_edits in H; discriminate H
          |apply edit_in_try_edits in H; discriminate H
          |destruct H as [H|[]]; discriminate].
    + intros [_ [_ H]]. injection H as -> -> -> -> ->. right; right; left. reflexivity.
  - split; [intros [H|[H|[H|[]]]]; discriminate | intros [_ [H _]]; discriminate].
Qed.

(** Once the collaborators are initialised, the flow first replies to the
    message with the "scanning" status, sends no other message, and ends by
    editing that status reply. It edits it once, or twice when Telegram
    rejects the first edit (made inside the [try]): the second edit then
    shows that error and is the last action. *)
Theorem trigger_replace_in_place (env : Env) (m : Z) :
  initialized env = true ->
  hd_error (trigger_trend_generation env m) = Some (ReplyText m TxtScanning) /\
  List.length (filter is_reply (trigger_trend_generation env m)) = 1%nat /\
  exists t kb,
    (filter is_edit (trigger_trend_generation env m) = [EditStatus m t kb] /\
     last (trigger_trend_generation env m) ConfigInitialize = EditStatus m t kb) \/
    (exists e, edit_result env t kb = Raise e /\
     filter is_edit (trigger_trend_generation env m) =
       [EditStatus m t kb; EditStatus m (TxtError e) None] /\
     last (trigger_trend_generation env m) ConfigInitialize = EditStatus m (TxtError e) None).
Proof.
  intros Hi. unfold trigger_trend_generation. rewrite Hi. cbn.
  destruct (config_init_result env) as [[]|e]; cbn.
  2: { split; [reflexivity|split; [reflexivity|]].
       exists (TxtError e), None. left. split; reflexivity. }
  destruct (get_trends env) as [[[[n c] s] t] u]. cbn.
  destruct (engine_result env) as [[|tr trs]|e]; cbn beta iota.
  3: { split; [reflexivity|split; [reflexivity|]].
       exists (TxtError e), None. left. split; reflexivity. }
  all: unfold edit_in_try;
    match goal with |- context [edit_result ?en ?t0 ?kb0] =>
      destruct (edit_result en t0 kb0) as [[]|e'] eqn:E; cbn;
      (split; [reflexivity|split; [reflexivity|]]); exists t0, kb0;
      [left; split; reflexivity | right; exists e'; split; [exact E|split; reflexivity]]
    end.
Qed.

Lemma trigger_replace_in_place_witness :
  initialized sample_env = true /\
  hd_error (trigger_trend_generation sample_env 10) = Some (ReplyText 10 TxtScanning).
Proof.
  split; [reflexivity|].
  exact (proj1 (trigger_replace_in_place sample_env 10 eq_refl)).
Defined.

(** When the engine returns a non-empty list of trends, the flow edits the
    status reply with the configured category, subcategory and topics and
    the keyboard of the trends' names (one button per trend in the engine's
    order, two per row, the regenerate row last). That edit stays the final
    state when Telegram accepts it; when Telegram rejects it, the final edit
    shows the error instead. *)
Theorem trigger_trend_keyboard (env : Env) (m num_trends : Z) (category subcat : pystr)
    (topics urls : list pystr) (trends : list Trend) :
  initialized env = true -> config_init_result env = Ok tt ->
  get_trends env = (num_trends, category, subcat, topics, urls) ->
  engine_result env = Ok trends -> trends <> [] ->
  let kb := trend_rows (map name trends) ++ [[refresh_button]] in
  In (EditStatus m (TxtTrends category subcat topics) (Some kb)) (trigger_trend_generation env m) /\
  last (trigger_trend_generation env m) ConfigInitialize =
    match edit_result env (TxtTrends category subcat topics) (Some kb) with
    | Ok _ => EditStatus m (TxtTrends category subcat topics) (Some kb)
    | Raise e => EditStatus m (TxtError e) None
    end /\
  List.concat (trend_rows (map name trends)) = map topic_button (map name trends) /\
  List.length (trend_rows (map name trends)) = ((List.length trends + 1) / 2)%nat.
Proof.
  intros Hi Hc Hg He Hne kb.
  assert (Htr : trigger_trend_generation env m =
                ReplyText m TxtScanning :: ConfigInitialize ::
                EngineFetch num_trends category subcat topics urls ::
                edit_in_try env m (TxtTrends category subcat topics) (Some kb)).
  { unfold trigger_trend_generation. rewrite Hi, Hc, Hg, He. cbn.
    destruct trends as [|tr trs]; [contradiction|]. reflexivity. }
  rewrite Htr. split; [|split; [|split]].
  - right; right; right. left. reflexivity.
  - unfold edit_in_try.
    destruct (edit_result env (TxtTrends category subcat topics) (Some kb)) as [[]|e];
      reflexivity.
  - apply concat_trend_rows.
  - rewrite length_trend_rows, length_map. reflexivity.
Qed.

Lemma trigger_trend_keyboard_witness :
  List.length (trend_rows (map name [mkTrend (lit "Agentic IDEs"); mkTrend (lit "Small LLMs")])) = 1%nat /\
  last (trigger_trend_generation sample_env 10) ConfigInitialize =
    EditStatus 10 (TxtTrends (lit "tech") (lit "ai") [lit "llms"])
      (Some (trend_rows (map name [mkTrend (lit "Agentic IDEs"); mkTrend (lit "Small LLMs")])
             ++ [[refresh_button]])).
Proof.
  destruct (trigger_trend_keyboard sample_env 10 4 (lit "tech") (lit "ai") [lit "llms"] []
              [mkTrend (lit "Agentic IDEs"); mkTrend (lit "Small LLMs")]
              eq_refl eq_refl eq_refl eq_refl ltac:(discriminate)) as [_ [H2 [_ H4]]].
  split; [rewrite H4; reflexivity | exact H2].
Defined.

(** ** Router *)

Lemma trigger_no_answer (env : Env) (m : Z) :
  filter is_answer (trigger_trend_generation env m) = [].
Proof.
  unfold trigger_trend_generation. destruct (initialized env); [|reflexivity]. cbn.
  destruct (config_init_result env) as [[]|e]; [|reflexivity]. cbn.
  destruct (get_trends env) as [[[[n c] s] t] u]. cbn.
  destruct (engine_result env) as [[|tr trs]|e]; cbn beta iota; try reflexivity;
    unfold edit_in_try; destruct (edit_result env _ _); reflexivity.
Qed.

(** a button press gets at most one callback answer, and whenever the
    handler does anything its first action is that answer. *)
Theorem button_answer_first (ADMIN_ID : Z) (env : Env) (user : option User)
    (message : option Z) (data : option pystr) :
  let effs := process_update ADMIN_ID env (UCallbackQuery user message data) in
  (List.length (filter is_answer effs) <= 1)%nat /\
  match effs with [] => True | e :: _ => is_answer e = true end.
Proof.
  cbn zeta. simpl process_update. unfold button_handler.
  destruct user as [u|], message as [m|]; try (split; [simpl; lia|exact I]).
  destruct (negb (user_id u =? ADMIN_ID)); [split; [simpl; lia|reflexivity]|].
  destruct data as [[|c d]|]; try (split; [simpl; lia|exact I]).
  destruct (startswith (c :: d) scout_prefix); [split; [simpl; lia|reflexivity]|].
  destruct (str_eqb (c :: d) refresh_token); [|split; [simpl; lia|exact I]].
  cbn [filter is_answer]. rewrite trigger_no_answer. split; [simpl; lia|reflexivity].
Qed.

Ltac targets_ok :=
  repeat first
    [ apply Forall_nil
    | apply Forall_cons; [first [left; reflexivity | right; reflexivity] |] ].

Lemma trigger_targets (env : Env) (m : Z) :
  Forall (fun e => message_target e = None \/ message_target e = Some m)
         (trigger_trend_generation env m) /\
  (List.length (filter is_reply (trigger_trend_generation env m)) <= 1)%nat /\
  (List.length (filter is_edit (trigger_trend_generation env m)) <= 2)%nat.
Proof.
  unfold trigger_trend_generation. destruct (initialized env); cbn.
  2: { split; [targets_ok | simpl; lia]. }
  destruct (config_init_result env) as [[]|e]; cbn.
  2: { split; [targets_ok | simpl; lia]. }
  destruct (get_trends env) as [[[[n c] s] t] u]. cbn.
  destruct (engine_result env) as [[|tr trs]|e]; cbn beta iota;
    try (unfold edit_in_try; destruct (edit_result env _ _));
    cbn; (split; [targets_ok | simpl; lia]).
Qed.

(** whatever the update, the bot sends at most one new message and
    edits at most twice (the status edit, then the error edit when Telegram
    rejects the first), and all are anchored at the message the update came
    with (the status reply to it); no other chat message is touched. *)
Theorem router_message_targets (ADMIN_ID : Z) (env : Env) (u : Update) :
  let effs := process_update ADMIN_ID env u in
  Forall (fun e => message_target e = None \/ message_target e = update_message u) effs /\
  (List.length (filter is_reply effs) <= 1)%nat /\
  (List.length (filter is_edit effs) <= 2)%nat.
Proof.
  cbn zeta. destruct u as [user m cmd|user message data|]; cbn [process_update update_message].
  - destruct (admin_only ADMIN_ID user); [|split; [targets_ok|simpl; lia]].
    destruct (str_eqb cmd (lit "start")).
    { unfold start_command. destruct user; (split; [targets_ok|simpl; lia]). }
    destruct (str_eqb cmd (lit "help")).
    { unfold help_command. split; [targets_ok|simpl; lia]. }
    destruct (str_eqb cmd (lit "trending")); [|split; [targets_ok|simpl; lia]].
    apply trigger_targets.
  - unfold button_handler.
    destruct user as [usr|], message as [m|]; try (split; [targets_ok|simpl; lia]).
    destruct (negb (user_id usr =? ADMIN_ID)); [split; [targets_ok|simpl; lia]|].
    destruct data as [[|c d]|]; try (split; [targets_ok|simpl; lia]).
    destruct (startswith (c :: d) scout_prefix); [split; [targets_ok|simpl; lia]|].
    destruct (str_eqb (c :: d) refresh_token); [|split; [targets_ok|simpl; lia]].
    destruct (trigger_targets env m) as [H1 [H2 H3]].
    split; [constructor; [left; reflexivity|exact H1]|]. simpl. lia.
  - split; [targets_ok|simpl; lia].
Qed.

(** ** Webhook and start-up *)

(** the endpoint answers 200 exactly when it dispatched one update to
    the router (after reading and deserializing the body); any other answer
    dispatched nothing. *)
Theorem webhook_200_iff_dispatched (ADMIN_ID : Z) (env : Env) (SECRET_TOKEN : option pystr)
    (ptb_app : bool) (header : option pystr) (body : option Json) :
  let r := telegram_webhook ADMIN_ID env SECRET_TOKEN ptb_app header body in
  (fst r = 200 /\
   exists u, snd r = [ReadJson; DeJson; ProcessUpdate u (process_update ADMIN_ID env u)]) \/
  (fst r <> 200 /\ forall u effs, ~ In (ProcessUpdate u effs) (snd r)).
Proof.
  cbn zeta. unfold telegram_webhook.
  destruct (opt_str_neqb header SECRET_TOKEN).
  { right. split; [discriminate|intros u effs []]. }
  destruct body as [j|].
  2: { right. split; [discriminate|intros u effs [H|[]]; discriminate]. }
  destruct ptb_app; cbn [negb].
  2: { right. split; [discriminate|intros u effs [H|[]]; discriminate]. }
  destruct (de_json j) as [u|].
  - left. split; [reflexivity|exists u; reflexivity].
  - right. split; [discriminate|intros u effs [H|[H|[]]]; discriminate].
Qed.

(** start-up registers the webhook exactly when the bot token, the
    webhook URL and the secret are all set (non-empty) and the API clients,
    the configuration and the bot were set up without an exception; it
    registers [WEBHOOK_URL + "/webhook"] with that secret. *)
Theorem lifespan_set_webhook (TOKEN WEBHOOK_URL SECRET_TOKEN : option pystr)
    (api_keys : list (option pystr)) (o : StartupOutcomes) (url secret : pystr) :
  In (SetWebhook url secret) (fst (lifespan TOKEN WEBHOOK_URL SECRET_TOKEN api_keys o)) <->
  truthy TOKEN = true /\ clients_init o = Ok tt /\ config_init o = Ok tt /\
  bot_start o = Ok tt /\
  (exists w, WEBHOOK_URL = Some w /\ w <> [] /\ url = w ++ lit "/webhook") /\
  SECRET_TOKEN = Some secret /\ secret <> [].
Proof.
  assert (Hwarn : forall b : bool, ~ In (SetWebhook url secret) (if b then [WarnMissingKeys] else @nil startup_step)).
  { intros [] H; simpl in H; [destruct H as [H|[]]; discriminate|exact H]. }
  unfold lifespan.
  destruct TOKEN as [[|c t]|]; cbn [fst truthy].
  1, 3: split; [intros [H|[]]; discriminate | intros [H _]; discriminate].
  destruct (clients_init o) as [[]|e]; cbn [fst].
  2: { split.
       - intros H. apply in_app_iff in H as [H|H]; [exfalso; exact (Hwarn _ H)|].
         destruct H as [H|[]]; discriminate.
       - intros [_ [H _]]; discriminate. }
  destruct (config_init o) as [[]|e]; cbn [fst].
  2: { split.
       - intros H. apply in_app_iff in H as [H|H]; [exfalso; exact (Hwarn _ H)|].
         destruct H as [H|[H|[]]]; discriminate.
       - intros [_ [_ [H _]]]; discriminate. }
  destruct (bot_start o) as [[]|e]; cbn [fst].
  2: { split.
       - intros H. apply in_app_iff in H as [H|H]; [exfalso; exact (Hwarn _ H)|].
         destruct H as [H|[H|[H|[H|[]]]]]; discriminate.
       - intros [_ [_ [_ [H _]]]]; discriminate. }
  split.
  - intros H.
    destruct WEBHOOK_URL as [[|cw w]|], SECRET_TOKEN as [[|cs s]|]; cbn iota in H;
      try (destruct (webhook_set o)); cbn [fst] in H;
      repeat rewrite <- app_assoc in H;
      apply in_app_iff in H as [H|H]; try (exfalso; exact (Hwarn _ H));
      simpl in H;
      repeat match goal with H : _ \/ _ |- _ => destruct H as [H|H] end;
      try discriminate; try contradiction;
      injection H as Hu Hs; subst url secret;
      (split; [reflexivity|split; [reflexivity|split; [reflexivity|split; [reflexivity|]]]]);
      (split; [exists (cw :: w); split; [reflexivity|split; [discriminate|reflexivity]]|]);
      (split; [reflexivity|discriminate]).
  - intros [_ [_ [_ [_ [[w [Hw [Hne Hu]]] [Hs Hsne]]]]]]. subst.
    destruct w as [|cw w]; [contradiction|]. destruct secret as [|cs s]; [contradiction|].
    cbn iota. destruct (webhook_set o); cbn [fst];
      repeat rewrite <- app_assoc; apply in_app_iff; right; simpl; auto 7.
Qed.

(** without a bot token, start-up stores no application; every webhook
    request then dispatches no update, whatever its header and body, and is
    never answered 200. *)
Theorem no_token_no_dispatch (ADMIN_ID : Z) (env : Env)
    (TOKEN WEBHOOK_URL SECRET_TOKEN : option pystr) (api_keys : list (option pystr))
    (o : StartupOutcomes) :
  truthy TOKEN = false ->
  snd (lifespan TOKEN WEBHOOK_URL SECRET_TOKEN api_keys o) = Ok false /\
  forall header body,
    fst (telegram_webhook ADMIN_ID env SECRET_TOKEN false header body) <> 200 /\
    forall u effs, ~ In (ProcessUpdate u effs)
                        (snd (telegram_webhook ADMIN_ID env SECRET_TOKEN false header body)).
Proof.
  intros Ht. split.
  - destruct TOKEN as [[|c t]|]; [reflexivity|discriminate|reflexivity].
  - intros header body.
    destruct (webhook_200_iff_dispatched ADMIN_ID env SECRET_TOKEN false header body)
      as [[H _]|H]; [|exact H].
    exfalso. revert H. unfold telegram_webhook.
    destruct (opt_str_neqb header SECRET_TOKEN); [discriminate|].
    destruct body as [j|]; [|discriminate]. cbn. discriminate.
Qed.

Lemma no_token_no_dispatch_witness :
  truthy None = false /\
  snd (lifespan None (Some (lit "https://bot.example")) (Some (lit "s3cret")) []
         (mkStartupOutcomes (Ok tt) (Ok tt) (Ok tt) (Ok tt))) = Ok false.
Proof.
  split; [reflexivity|].
  exact (proj1 (no_token_no_dispatch 1 sample_env None (Some (lit "https://bot.example"))
                  (Some (lit "s3cret")) [] (mkStartupOutcomes (Ok tt) (Ok tt) (Ok tt) (Ok tt))
                  eq_refl)).
Defined.

(** Witnesses of the encoder lemmas stated with the keyboard layout. *)
Lemma decode_topic_button_no_marker_witness :
  contains (prefix_slice (repeat 97 45 ++ lit "scout_x") 45) scout_prefix = false /\
  decode_topic (callback_data (topic_button (repeat 97 45 ++ lit "scout_x"))) = repeat 97 45.
Proof.
  split; [vm_compute; reflexivity|].
  exact (decode_topic_button_no_marker (repeat 97 45 ++ lit "scout_x") eq_refl).
Defined.

Lemma topic_button_ascii_bytes_witness :
  Forall (fun c => c < 128) (lit "Small LLMs") /\
  utf8_length (callback_data (topic_button (lit "Small LLMs"))) <= 51.
Proof.
  assert (H : Forall (fun c => c < 128) (lit "Small LLMs")) by (repeat constructor).
  split; [exact H|]. exact (topic_button_ascii_bytes (lit "Small LLMs") H).
Defined.
